(** * TopologyUp plugin: a shallow embedding of [topoup.py]

    The plugin has two pieces of logic: [TopologyUpPlugin.pre_job], the hook
    that fans one connectivity task out per testbed device and then inspects
    the collected results, and [device_connect], the per-device retry loop.
    Both are embedded below as computations over an explicit world (a wall
    clock and a trace of the effects performed), with Python exceptions as an
    explicit result.

    Conventions.
    - Python ints and floats are both rendered as [Z], a count of clock ticks
      (the unit of [time()] and [sleep()]); nothing below depends on rounding.
    - [while] loops take fuel; [None] means the fuel ran out, never an answer.
    - The trace is kept most-recent-first. *)

From Stdlib Require Import ZArith List String Bool Lia.
Import ListNotations.
Local Open Scope string_scope.
Local Open Scope Z_scope.

(** ** Python values and exceptions *)

(** The values the three command-line options can hold: the declared
    defaults ([None], [120], [10]), the raw token argparse stores, or whatever
    a caller put into the namespace. *)
Inductive pyval : Type :=
| PNone
| PBool (b : bool)
| PNum (x : Z)
| PStr (s : string).

Inductive exn : Type :=
| TypeError
| ValueError
| IndexError
| ConnectionError
| ChildProcessError (cause : exn)
| PyException (msg : string).

Inductive outcome (A : Type) : Type :=
| Ret (a : A)
| Raise (e : exn).
Arguments Ret {A} a.
Arguments Raise {A} e.

(** Truth value of an object, as tested by [if x:]. *)
Definition truthy (v : pyval) : bool :=
  match v with
  | PNone => false
  | PBool b => b
  | PNum x => negb (x =? 0)
  | PStr s => negb (String.eqb s "")
  end.

Definition Z_of_bool (b : bool) : Z := if b then 1 else 0.

(** [v - x] for a float [x]: defined on numbers (and bools, which are ints),
    a [TypeError] on [None] and on strings. *)
Definition py_sub_float (v : pyval) (x : Z) : outcome Z :=
  match v with
  | PNone => Raise TypeError
  | PBool b => Ret (Z_of_bool b - x)
  | PNum y => Ret (y - x)
  | PStr _ => Raise TypeError
  end.

(** ** Devices, events and the world *)

(** A device handle: its name and what [connect()] does.  [dev_connect n t]
    describes the attempt number [n] (counted from 0) started at clock [t]:
    whether it succeeds, and how long the call takes. *)
Record device : Type := Device {
  dev_name : string;
  dev_connect : nat -> Z -> bool * Z
}.

(** The four [log.info] lines of the module. *)
Inductive log_msg : Type :=
| LogDisabled
| LogTimers (timeout interval : pyval)
| LogRetry (name : string) (interval : pyval) (remaining_time : Z)
| LogConnected (name : string).

Inductive event : Type :=
| EvTime (t : Z)
| EvLog (m : log_msg)
| EvConnect (name : string) (ok : bool)
| EvSleep (secs : Z)
| EvSpawn (name : string) (start_time : Z) (timeout interval : pyval).

Record world : Type := World {
  clock : Z;
  trace : list event
}.

Definition record_event (e : event) (w : world) : world :=
  World (clock w) (e :: trace w).

Definition advance (d : Z) (w : world) : world :=
  World (clock w + d) (trace w).

Definition is_connect (e : event) : bool :=
  match e with EvConnect _ _ => true | _ => false end.
Definition is_sleep (e : event) : bool :=
  match e with EvSleep _ => true | _ => false end.
Definition is_time (e : event) : bool :=
  match e with EvTime _ => true | _ => false end.
Definition is_spawn (e : event) : bool :=
  match e with EvSpawn _ _ _ _ => true | _ => false end.

Definition count_events (p : event -> bool) (w : world) : nat :=
  List.length (List.filter p (trace w)).

(** Connection attempts made so far, and sleeps taken so far. *)
Definition attempts (w : world) : nat := count_events is_connect w.
Definition sleeps (w : world) : nat := count_events is_sleep w.

(** ** Computations *)

(** A computation runs in a world and either runs out of fuel ([None]) or
    finishes, normally or with an exception, in a new world. *)
Definition proc (A : Type) : Type := world -> option (outcome A * world).

Definition ret {A} (a : A) : proc A := fun w => Some (Ret a, w).
Definition raise {A} (e : exn) : proc A := fun w => Some (Raise e, w).
Definition lift {A} (o : outcome A) : proc A := fun w => Some (o, w).

Definition bind {A B} (c : proc A) (k : A -> proc B) : proc B :=
  fun w =>
    match c w with
    | None => None
    | Some (Raise e, w') => Some (Raise e, w')
    | Some (Ret a, w') => k a w'
    end.

Declare Scope proc_scope.
Delimit Scope proc_scope with proc.
Notation "x <- c ;; k" := (bind c (fun x => k))
  (at level 100, c at next level, right associativity) : proc_scope.
Notation "c ;; k" := (bind c (fun _ => k))
  (at level 100, right associativity) : proc_scope.
Local Open Scope proc_scope.

(** [try: body / except: handler / else: orelse].  The bare [except:] catches
    every exception of [body]; exceptions of [handler] and [orelse] are not
    caught. *)
Definition try_except_else {A B} (body : proc A) (handler : proc B)
    (orelse : A -> proc B) : proc B :=
  fun w =>
    match body w with
    | None => None
    | Some (Raise _, w') => handler w'
    | Some (Ret a, w') => orelse a w'
    end.

(** How one pass through a loop body ends: [continue] (or falling off the
    end), or [return r]. *)
Inductive control (R : Type) : Type :=
| Continue
| Return (r : R).
Arguments Continue {R}.
Arguments Return {R} r.

(** [while cond: body] followed by [after], inside a function returning [R]. *)
Fixpoint while {R} (fuel : nat) (cond : proc bool) (body : proc (control R))
    (after : proc R) : proc R :=
  fun w =>
    match fuel with
    | O => None
    | S fuel' =>
        match cond w with
        | None => None
        | Some (Raise e, w1) => Some (Raise e, w1)
        | Some (Ret false, w1) => after w1
        | Some (Ret true, w1) =>
            match body w1 with
            | None => None
            | Some (Raise e, w2) => Some (Raise e, w2)
            | Some (Ret (Return r), w2) => Some (Ret r, w2)
            | Some (Ret Continue, w2) => while fuel' cond body after w2
            end
        end
    end.

(** ** Primitives of the environment *)

(** [time()]: reads the wall clock. *)
Definition time : proc Z :=
  fun w => Some (Ret (clock w), record_event (EvTime (clock w)) w).

(** [log.info(...)]. *)
Definition log_info (m : log_msg) : proc unit :=
  fun w => Some (Ret tt, record_event (EvLog m) w).

(** [sleep(secs)]: a [TypeError] on a non-number, a [ValueError] on a negative
    number, otherwise the clock moves on by [secs]. *)
Definition sleep (secs : pyval) : proc unit :=
  fun w =>
    match secs with
    | PNone => Some (Raise TypeError, w)
    | PStr _ => Some (Raise TypeError, w)
    | PBool b =>
        Some (Ret tt, advance (Z_of_bool b) (record_event (EvSleep (Z_of_bool b)) w))
    | PNum x =>
        if x <? 0 then Some (Raise ValueError, w)
        else Some (Ret tt, advance x (record_event (EvSleep x) w))
    end.

(** [device.connect()]: returns on success, raises on failure. *)
Definition connect (d : device) : proc unit :=
  fun w =>
    let (ok, took) := dev_connect d (attempts w) (clock w) in
    let w' := advance took (record_event (EvConnect (dev_name d) ok) w) in
    if ok then Some (Ret tt, w') else Some (Raise ConnectionError, w').

(** [l[i]]. *)
Definition index {A} (l : list A) (i : nat) : proc A :=
  match nth_error l i with
  | Some x => ret x
  | None => raise IndexError
  end.

(** ** Command-line options *)

(** One [add_argument] call.  None of the three calls passes [type=], so the
    record has no such field. *)
Record argument : Type := Argument {
  option_strings : list string;
  dest : string;
  action : string;
  default : pyval;
  help : string
}.

(** [TopologyUpPlugin.configure_parser]: the arguments added to the group. *)
Definition configure_parser (legacy_cli : bool) : list argument :=
  let all_devices_up :=
    if legacy_cli then ["-ignore-all-devices-up"] else ["--ignore-all-devices-up"] in
  let connection_check_timeout :=
    if legacy_cli then ["-connection-check-timeout"]
    else ["--connection-check-timeout"] in
  let connection_check_interval :=
    if legacy_cli then ["-connection-check-interval"]
    else ["--connection-check-interval"] in
  [ Argument all_devices_up "all_devices_up" "store" PNone
      "Enable/Disable checking for topology up pre job execution";
    Argument connection_check_timeout "connection_check_timeout" "store" (PNum 120)
      "Total time allowed for checking devices connectivity";
    Argument connection_check_interval "connection_check_interval" "store" (PNum 10)
      "Time to sleep between device connectivity checks" ].

(** [self.runtime.args], restricted to the attributes the plugin reads. *)
Record args : Type := Args {
  all_devices_up : pyval;
  connection_check_timeout : pyval;
  connection_check_interval : pyval
}.

(** The fragment of argparse the plugin relies on: a [store] action without
    [type=] keeps the token that follows the option string, as a string; the
    last occurrence wins; an option that does not occur keeps its default. *)
Fixpoint stored_value (a : argument) (argv : list string) (current : pyval)
    : pyval :=
  match argv with
  | [] => current
  | tok :: rest =>
      match rest with
      | [] => current
      | value :: rest' =>
          if existsb (String.eqb tok) (option_strings a)
          then stored_value a rest' (PStr value)
          else stored_value a rest current
      end
  end.

Definition namespace_value (parser : list argument) (argv : list string)
    (name : string) : pyval :=
  match find (fun a => String.eqb (dest a) name) parser with
  | Some a => stored_value a argv (default a)
  | None => PNone
  end.

Definition parse_args (parser : list argument) (argv : list string) : args :=
  Args (namespace_value parser argv "all_devices_up")
       (namespace_value parser argv "connection_check_timeout")
       (namespace_value parser argv "connection_check_interval").

(** ** The parallel-call primitive *)

(** [pcall(target, ckwargs=..., ikwargs=[...])]: [ckwargs] are the keyword
    arguments common to every call, [ikwargs] the per-call ones (here the
    device). *)
Record ckwargs : Type := Ckwargs {
  ck_start_time : Z;
  ck_timeout : pyval;
  ck_interval : pyval
}.

Definition target : Type := device -> Z -> pyval -> pyval -> proc bool.
Definition pcall_type : Type := target -> ckwargs -> list device -> proc (list bool).

(** A model of the framework primitive: every call runs in a child of its
    own, started [launch i] ticks after the fork with an empty trace; the
    parent records one [EvSpawn] per child with the arguments the child was
    called with, waits for all of them, and gets the results in device order.
    A child that raised makes the call raise. *)
Fixpoint run_children (f : device -> proc bool) (launch : nat -> Z) (i : nat)
    (devs : list device) (w : world) : option (list (outcome bool * world)) :=
  match devs with
  | [] => Some []
  | d :: rest =>
      match f d (World (clock w + launch i) []) with
      | None => None
      | Some r =>
          match run_children f launch (S i) rest w with
          | None => None
          | Some rs => Some (r :: rs)
          end
      end
  end.

Fixpoint collect (rs : list (outcome bool * world)) : outcome (list bool) :=
  match rs with
  | [] => Ret []
  | (Raise e, _) :: _ => Raise (ChildProcessError e)
  | (Ret b, _) :: rest =>
      match collect rest with
      | Ret bs => Ret (b :: bs)
      | Raise e => Raise e
      end
  end.

Definition join_clock (w : world) (rs : list (outcome bool * world)) : Z :=
  fold_right (fun r t => Z.max (clock (snd r)) t) (clock w) rs.

Definition spawn_event (ck : ckwargs) (d : device) : event :=
  EvSpawn (dev_name d) (ck_start_time ck) (ck_timeout ck) (ck_interval ck).

Definition pcall_fork (launch : nat -> Z) : pcall_type :=
  fun f ck devs w =>
    match run_children
            (fun d => f d (ck_start_time ck) (ck_timeout ck) (ck_interval ck))
            launch 0%nat devs w with
    | None => None
    | Some rs =>
        Some (collect rs,
              World (join_clock w rs) (rev (map (spawn_event ck) devs) ++ trace w))
    end.

(** ** The plugin *)

(** A sample reading of numeric strings, used where a concrete [float(s)] is
    needed: it accepts the unsigned decimal integers, on which it agrees with
    Python. *)
Definition digit_value (c : Ascii.ascii) : option Z :=
  let n := Ascii.nat_of_ascii c in
  if ((48 <=? n) && (n <=? 57))%nat then Some (Z.of_nat n - 48) else None.

Fixpoint decimal_digits (s : string) (acc : Z) : option Z :=
  match s with
  | EmptyString => Some acc
  | String c rest =>
      match digit_value c with
      | Some d => decimal_digits rest (10 * acc + d)
      | None => None
      end
  end.

Definition decimal_float (s : string) : option Z :=
  match s with
  | EmptyString => None
  | _ => decimal_digits s 0
  end.

Section Plugin.

(** Python's [float(s)] on a string: the number read, or nothing when the
    text is not a number.  The plugin is embedded for any such reading. *)
Variable float_of_str : string -> option Z.

(** [float(v)]. *)
Definition py_float (v : pyval) : outcome Z :=
  match v with
  | PNone => Raise TypeError
  | PBool b => Ret (Z_of_bool b)
  | PNum x => Ret x
  | PStr s =>
      match float_of_str s with
      | Some x => Ret x
      | None => Raise ValueError
      end
  end.

(** [device_connect(device, start_time, timeout, interval)]. *)
Definition device_connect (fuel : nat) (device : device) (start_time : Z)
    (timeout interval : pyval) : proc bool :=
  now <- time ;;
  let time_difference := now - start_time in
  while fuel
    (now <- time ;;
     limit <- lift (py_float timeout) ;;
     ret (now - start_time <? limit))
    (try_except_else
       (connect device)
       (remaining_time <- lift (py_sub_float timeout time_difference) ;;
        log_info (LogRetry (dev_name device) interval remaining_time) ;;
        sleep interval ;;
        ret Continue)
       (fun _ =>
          log_info (LogConnected (dev_name device)) ;;
          ret (Return true)))
    (ret false).

Section PreJob.

Variable pcall : pcall_type.

(** [TopologyUpPlugin.pre_job(self, task)]; [devices] is
    [self.runtime.testbed.devices] in iteration order. *)
Definition pre_job (fuel : nat) (runtime_args : args)
    (devices : list device) : proc unit :=
  let ignore_devices_up := all_devices_up runtime_args in
  if truthy ignore_devices_up then
    log_info LogDisabled ;;
    ret tt
  else
    start_time <- time ;;
    let timeout := connection_check_timeout runtime_args in
    let interval := connection_check_interval runtime_args in
    log_info (LogTimers timeout interval) ;;
    pcall_output <- pcall (device_connect fuel)
                      (Ckwargs start_time timeout interval) devices ;;
    conj <- (first <- index pcall_output 0 ;;
             if first then index pcall_output 1 else ret first) ;;
    if negb conj then
      raise (PyException "Not all the testbed devices are up and ready")
    else
      ret tt.

End PreJob.

End Plugin.

(** ** What the documentation asks of the gate *)

(** The reduction the plugin's docstring and error message describe: every
    device is up. *)
Definition all_devices_ready (outcomes : list bool) : bool :=
  forallb (fun b => b) outcomes.

(** ** Sample devices and runs *)

(** A device that accepts the first connection at once. *)
Definition device_up (name : string) : device :=
  Device name (fun _ _ => (true, 0)).

(** A device that refuses every connection at once. *)
Definition device_down (name : string) : device :=
  Device name (fun _ _ => (false, 0)).

(** A device that refuses [n] connections and accepts the next. *)
Definition device_up_after (name : string) (n : nat) : device :=
  Device name (fun k _ => (Nat.leb n k, 0)).

Definition no_delay : nat -> Z := fun _ => 0.

Definition fresh_world (t : Z) : world := World t [].

Definition default_args : args := parse_args (configure_parser true) [].

(** ** Packaging: [setup.py] *)

(** [s.startswith(p)]. *)
Fixpoint startswith (p s : string) : bool :=
  match p, s with
  | EmptyString, _ => true
  | String _ _, EmptyString => false
  | String a p', String b s' => Ascii.eqb a b && startswith p' s'
  end.

(** [p in s] for strings. *)
Fixpoint contains (p s : string) : bool :=
  startswith p s ||
  match s with
  | EmptyString => false
  | String _ s' => contains p s'
  end.

(** [s.replace(old, new)] for a non-empty [old]: the occurrences of [old]
    are found from the left and do not overlap.  [skip] counts the characters
    of an occurrence still to be passed over. *)
Fixpoint replace_from (old new : string) (skip : nat) (s : string) : string :=
  match s with
  | EmptyString => EmptyString
  | String c rest =>
      match skip with
      | S k => replace_from old new k rest
      | O =>
          if startswith old s
          then new ++ replace_from old new (String.length old - 1) rest
          else String c (replace_from old new 0 rest)
      end
  end.

Definition replace (old new s : string) : string := replace_from old new 0 s.

Definition is_lower (c : Ascii.ascii) : bool :=
  let n := Ascii.nat_of_ascii c in ((97 <=? n) && (n <=? 122))%nat.
Definition is_upper (c : Ascii.ascii) : bool :=
  let n := Ascii.nat_of_ascii c in ((65 <=? n) && (n <=? 90))%nat.
Definition to_upper (c : Ascii.ascii) : Ascii.ascii :=
  if is_lower c then Ascii.ascii_of_nat (Ascii.nat_of_ascii c - 32) else c.
Definition to_lower (c : Ascii.ascii) : Ascii.ascii :=
  if is_upper c then Ascii.ascii_of_nat (Ascii.nat_of_ascii c + 32) else c.

(** [s.title()] on ASCII text: a letter that follows a letter is lowered, any
    other letter is raised, and the rest is kept. *)
Fixpoint title_from (previous_is_cased : bool) (s : string) : string :=
  match s with
  | EmptyString => EmptyString
  | String c rest =>
      String (if previous_is_cased then to_lower c else to_upper c)
             (title_from (is_lower c || is_upper c) rest)
  end.

Definition title (s : string) : string := title_from false s.

(** One name returned by [listdir('src/creators')], with what [isfile] says
    of it. *)
Record dir_entry : Type := DirEntry {
  entry_name : string;
  entry_isfile : bool
}.

Definition excluded_files : list string := ["__init__.py"; "creator.py"].

Definition entry_point (source : string) : string :=
  source ++ " = src.creators." ++ source ++ ":" ++ title source.

(** [discover_creators()], given the listing of [src/creators]. *)
Definition discover_creators (listing : list dir_entry) : list string :=
  let files :=
    map (fun file => replace ".py" "" file)
      (filter (fun file => negb (existsb (String.eqb file) excluded_files))
         (map entry_name (filter entry_isfile listing))) in
  map entry_point files.

(** ** Names for the two halves of the retry loop *)

Section Loop.

Variable float_of_str : string -> option Z.

(** The loop test [(time() - start_time) < float(timeout)]. *)
Definition loop_test (start_time : Z) (timeout : pyval) : proc bool :=
  now <- time ;;
  limit <- lift (py_float float_of_str timeout) ;;
  ret (now - start_time <? limit).

(** The loop body: one [try]/[except]/[else] around [device.connect()]. *)
Definition loop_body (device : device) (timeout interval : pyval)
    (time_difference : Z) : proc (control bool) :=
  try_except_else
    (connect device)
    (remaining_time <- lift (py_sub_float timeout time_difference) ;;
     log_info (LogRetry (dev_name device) interval remaining_time) ;;
     sleep interval ;;
     ret Continue)
    (fun _ =>
       log_info (LogConnected (dev_name device)) ;;
       ret (Return true)).

End Loop.

(** What one pass through the loop body can do from a world [w]: the four
    ways out of the [try]/[except]/[else] statement. *)
Inductive body_step (d : device) (timeout interval : pyval) (td : Z)
    (w : world) : outcome (control bool) -> world -> Prop :=
| step_connected took :
    dev_connect d (attempts w) (clock w) = (true, took) ->
    body_step d timeout interval td w (Ret (Return true))
      (record_event (EvLog (LogConnected (dev_name d)))
         (advance took (record_event (EvConnect (dev_name d) true) w)))
| step_message_raises took :
    dev_connect d (attempts w) (clock w) = (false, took) ->
    py_sub_float timeout td = Raise TypeError ->
    body_step d timeout interval td w (Raise TypeError)
      (advance took (record_event (EvConnect (dev_name d) false) w))
| step_sleep_raises took remaining e :
    dev_connect d (attempts w) (clock w) = (false, took) ->
    py_sub_float timeout td = Ret remaining ->
    e = TypeError \/ e = ValueError ->
    body_step d timeout interval td w (Raise e)
      (record_event (EvLog (LogRetry (dev_name d) interval remaining))
         (advance took (record_event (EvConnect (dev_name d) false) w)))
| step_retry took remaining secs :
    dev_connect d (attempts w) (clock w) = (false, took) ->
    py_sub_float timeout td = Ret remaining ->
    0 <= secs ->
    body_step d timeout interval td w (Ret Continue)
      (advance secs
         (record_event (EvSleep secs)
            (record_event (EvLog (LogRetry (dev_name d) interval remaining))
               (advance took (record_event (EvConnect (dev_name d) false) w))))).

(** * Properties *)

Ltac run :=
  unfold loop_test, loop_body, try_except_else, connect, bind, time, lift,
    log_info, sleep, index, ret, raise; simpl.

Section Properties.

Variable float_of_str : string -> option Z.

(** [device_connect] is its first clock reading followed by the loop on the
    two halves named above. *)
Lemma device_connect_eq fuel d start timeout interval w :
  device_connect float_of_str fuel d start timeout interval w =
  while fuel (loop_test float_of_str start timeout)
    (loop_body d timeout interval (clock w - start)) (ret false)
    (record_event (EvTime (clock w)) w).
Proof. reflexivity. Qed.

(** More fuel never changes an answer already reached. *)
Lemma while_fuel_mono {R} (c : proc bool) (b : proc (control R)) (a : proc R) :
  forall fuel fuel' w r,
    (fuel <= fuel')%nat ->
    while fuel c b a w = Some r ->
    while fuel' c b a w = Some r.
Proof.
  induction fuel as [|fuel IH]; intros fuel' w r Hle Hrun.
  - discriminate.
  - destruct fuel' as [|fuel']; [lia|].
    simpl in *.
    destruct (c w) as [[[[|]|e] w1]|]; try assumption.
    destruct (b w1) as [[[[|r']|e] w2]|]; try assumption.
    apply IH; [lia|assumption].
Qed.

Lemma device_connect_fuel_mono fuel fuel' d start timeout interval w r :
  (fuel <= fuel')%nat ->
  device_connect float_of_str fuel d start timeout interval w = Some r ->
  device_connect float_of_str fuel' d start timeout interval w = Some r.
Proof.
  rewrite !device_connect_eq. apply while_fuel_mono.
Qed.

Lemma loop_test_numeric start timeout limit w :
  py_float float_of_str timeout = Ret limit ->
  loop_test float_of_str start timeout w =
  Some (Ret (clock w - start <? limit), record_event (EvTime (clock w)) w).
Proof. intros H. run. rewrite H. reflexivity. Qed.

Lemma attempts_record e w :
  attempts (record_event e w) =
  if is_connect e then S (attempts w) else attempts w.
Proof. unfold attempts, count_events. simpl. destruct (is_connect e); reflexivity. Qed.

Lemma sleeps_record e w :
  sleeps (record_event e w) = if is_sleep e then S (sleeps w) else sleeps w.
Proof. unfold sleeps, count_events. simpl. destruct (is_sleep e); reflexivity. Qed.

Lemma while_step {R} fuel (c : proc bool) (b : proc (control R)) (a : proc R) w :
  while (S fuel) c b a w =
  match c w with
  | None => None
  | Some (Raise e, w1) => Some (Raise e, w1)
  | Some (Ret false, w1) => a w1
  | Some (Ret true, w1) =>
      match b w1 with
      | None => None
      | Some (Raise e, w2) => Some (Raise e, w2)
      | Some (Ret (Return r), w2) => Some (Ret r, w2)
      | Some (Ret Continue, w2) => while fuel c b a w2
      end
  end.
Proof. reflexivity. Qed.

Lemma clock_record e w : clock (record_event e w) = clock w.
Proof. reflexivity. Qed.

(** One pass through the loop body when [connect()] returns. *)
Lemma loop_body_connected d timeout interval td w took :
  dev_connect d (attempts w) (clock w) = (true, took) ->
  loop_body d timeout interval td w =
  Some (Ret (Return true),
        record_event (EvLog (LogConnected (dev_name d)))
          (advance took (record_event (EvConnect (dev_name d) true) w))).
Proof. intros H. run. rewrite H. reflexivity. Qed.

(** One pass through the loop body when [connect()] raises: the handler
    runs in the world left by the attempt. *)
Lemma loop_body_refused d timeout interval td w took :
  dev_connect d (attempts w) (clock w) = (false, took) ->
  loop_body d timeout interval td w =
  (remaining_time <- lift (py_sub_float timeout td) ;;
   log_info (LogRetry (dev_name d) interval remaining_time) ;;
   sleep interval ;;
   ret Continue)
    (advance took (record_event (EvConnect (dev_name d) false) w)).
Proof. intros H. unfold loop_body, try_except_else, connect. rewrite H. reflexivity. Qed.

Ltac enter_loop limit :=
  rewrite device_connect_eq, while_step, (loop_test_numeric _ _ limit),
    clock_record by assumption.

(** C5: when the time elapsed since the shared start has already reached the
    timeout at the moment the loop test is evaluated, [device_connect]
    returns [False] and no connection attempt is made. *)
Theorem device_connect_deadline_passed fuel d start timeout interval w limit :
  py_float float_of_str timeout = Ret limit ->
  limit <= clock w - start ->
  exists w',
    device_connect float_of_str (S fuel) d start timeout interval w = Some (Ret false, w') /\
    attempts w' = attempts w /\
    sleeps w' = sleeps w /\
    clock w' = clock w.
Proof.
  intros Hfloat Hlate.
  enter_loop limit.
  replace (clock w - start <? limit) with false by (symmetry; apply Z.ltb_ge; lia).
  eexists. split; [reflexivity|].
  repeat split.
Qed.

(** C6: when the deadline has not yet passed and the first connection attempt
    succeeds, [device_connect] returns [True] after exactly one attempt and
    without sleeping. *)
Theorem device_connect_first_attempt_succeeds fuel d start timeout interval w limit :
  py_float float_of_str timeout = Ret limit ->
  clock w - start < limit ->
  fst (dev_connect d (attempts w) (clock w)) = true ->
  exists w',
    device_connect float_of_str (S fuel) d start timeout interval w = Some (Ret true, w') /\
    attempts w' = S (attempts w) /\
    sleeps w' = sleeps w.
Proof.
  intros Hfloat Hearly Hok.
  destruct (dev_connect d (attempts w) (clock w)) as [ok took] eqn:Hconn.
  simpl in Hok. subst ok.
  enter_loop limit.
  replace (clock w - start <? limit) with true by (symmetry; apply Z.ltb_lt; lia).
  cbv beta iota.
  erewrite loop_body_connected by (rewrite attempts_record, clock_record; exact Hconn).
  eexists. split; [reflexivity|].
  split; reflexivity.
Qed.

(** C10: the timeout option is stored without conversion, so a value given on
    the command line reaches [device_connect] as a string; the loop test
    reads it through [float], but when the first attempt fails before the
    deadline the retry message subtracts from the string and a [TypeError]
    leaves [device_connect]: no sleep, no second attempt. *)
Theorem device_connect_string_timeout_type_error
    (legacy : bool) s fuel d start interval w limit :
  float_of_str s = Some limit ->
  clock w - start < limit ->
  fst (dev_connect d (attempts w) (clock w)) = false ->
  let option_string :=
    if legacy then "-connection-check-timeout" else "--connection-check-timeout" in
  let timeout :=
    connection_check_timeout
      (parse_args (configure_parser legacy) [option_string; s]) in
  timeout = PStr s /\
  exists w',
    device_connect float_of_str (S fuel) d start timeout interval w = Some (Raise TypeError, w') /\
    attempts w' = S (attempts w) /\
    sleeps w' = sleeps w.
Proof.
  intros Hfloat Hearly Hfail option_string timeout.
  assert (Htimeout : timeout = PStr s) by (destruct legacy; reflexivity).
  split; [assumption|].
  rewrite Htimeout.
  assert (Hlimit : py_float float_of_str (PStr s) = Ret limit) by (simpl; rewrite Hfloat; reflexivity).
  destruct (dev_connect d (attempts w) (clock w)) as [ok took] eqn:Hconn.
  simpl in Hfail. subst ok.
  enter_loop limit.
  replace (clock w - start <? limit) with true by (symmetry; apply Z.ltb_lt; lia).
  cbv beta iota.
  erewrite loop_body_refused by (rewrite attempts_record, clock_record; exact Hconn).
  eexists. split; [reflexivity|].
  split; reflexivity.
Qed.

(** The retry loop against a device that always refuses at once: each pass
    moves the clock on by the interval, so [k] passes are enough once
    [interval * k] covers the time left. *)
Lemma retry_until_deadline d start T I td :
  0 < I ->
  (forall n t, dev_connect d n t = (false, 0)) ->
  forall (k fuel : nat) w,
    (k <= fuel)%nat ->
    T - (clock w - start) <= I * Z.of_nat k ->
    clock w - start <= T + I ->
    exists w',
      while (S fuel) (loop_test float_of_str start (PNum T))
        (loop_body d (PNum T) (PNum I) td) (ret false) w = Some (Ret false, w') /\
      T <= clock w' - start <= T + I.
Proof.
  intros HI Hfail.
  induction k as [|k IH]; intros fuel w Hle Hleft Hbound;
    rewrite while_step, (loop_test_numeric _ _ T) by reflexivity;
    destruct (Z.ltb_spec (clock w - start) T) as [Hearly|Hlate];
    cbv beta iota.
  - lia.
  - eexists. split; [reflexivity|]. simpl. lia.
  - erewrite loop_body_refused by apply Hfail.
    unfold bind, lift, log_info, sleep, ret, py_sub_float.
    cbv beta iota.
    rewrite (proj2 (Z.ltb_ge I 0)) by lia.
    destruct fuel as [|fuel]; [lia|].
    apply IH; [lia| |]; simpl; lia.
  - eexists. split; [reflexivity|]. simpl. lia.
Qed.

(** C3: against a device whose [connect] always fails (each failed attempt
    costing exactly the sleep of [I > 0] ticks), the retry loop entered no
    later than [T + I] after the shared start terminates, returns [False],
    and does so no later than [T + I] after that start. *)
Theorem device_connect_always_fails_bounded d start T I w :
  0 < I ->
  (forall n t, dev_connect d n t = (false, 0)) ->
  clock w - start <= T + I ->
  exists fuel w',
    (forall fuel', (fuel <= fuel')%nat ->
       device_connect float_of_str fuel' d start (PNum T) (PNum I) w = Some (Ret false, w')) /\
    clock w' - start <= T + I.
Proof.
  intros HI Hfail Hentry.
  set (k := Z.to_nat (T - (clock w - start))).
  destruct (retry_until_deadline d start T I (clock w - start) HI Hfail k k
              (record_event (EvTime (clock w)) w)) as [w' [Hrun Hclock]].
  - lia.
  - rewrite clock_record. subst k. nia.
  - rewrite clock_record. assumption.
  - exists (S k), w'. split; [|lia].
    intros fuel' Hfuel.
    apply (device_connect_fuel_mono (S k)); [assumption|].
    rewrite device_connect_eq. exact Hrun.
Qed.

(** The hook with the gate enabled: one clock sample, one log line, the
    fan-out, then the test on the first two results. *)
Lemma pre_job_enabled pcall fuel a devs w :
  truthy (all_devices_up a) = false ->
  pre_job float_of_str pcall fuel a devs w =
  (pcall_output <- pcall (device_connect float_of_str fuel)
                     (Ckwargs (clock w) (connection_check_timeout a)
                        (connection_check_interval a)) devs ;;
   conj <- (first <- index pcall_output 0 ;;
            if first then index pcall_output 1 else ret first) ;;
   if negb conj then
     raise (PyException "Not all the testbed devices are up and ready")
   else ret tt)
    (record_event
       (EvLog (LogTimers (connection_check_timeout a) (connection_check_interval a)))
       (record_event (EvTime (clock w)) w)).
Proof. intros H. unfold pre_job. rewrite H. reflexivity. Qed.

Lemma pcall_fork_single launch f ck d w r wc :
  f d (ck_start_time ck) (ck_timeout ck) (ck_interval ck)
    (World (clock w + launch 0%nat) []) = Some (r, wc) ->
  pcall_fork launch f ck [d] w =
  Some (collect [(r, wc)],
        World (Z.max (clock wc) (clock w)) (spawn_event ck d :: trace w)).
Proof.
  intros H. unfold pcall_fork. cbn [run_children]. rewrite H. reflexivity.
Qed.

Lemma no_time_in_spawns ck devs :
  filter is_time (rev (map (spawn_event ck) devs)) = [].
Proof.
  induction devs as [|d devs IH]; [reflexivity|].
  simpl. rewrite filter_app, IH. reflexivity.
Qed.

Lemma run_children_length f launch devs :
  forall i w rs,
    run_children f launch i devs w = Some rs -> List.length rs = List.length devs.
Proof.
  induction devs as [|d devs IH]; intros i w rs H; simpl in H.
  - injection H as <-. reflexivity.
  - destruct (f d _) as [r|]; [|discriminate].
    destruct (run_children f launch (S i) devs w) as [rs'|] eqn:E; [|discriminate].
    injection H as <-. simpl. f_equal. eapply IH; eassumption.
Qed.

(** C2: with the flag set the hook returns at once whatever the devices are:
    its only effect is the log line, so the fan-out is not called (the
    result is the same for every [pcall]), nothing is spawned and no
    connection is attempted. *)
Theorem pre_job_disabled_skips_checks pcall fuel a devs w :
  truthy (all_devices_up a) = true ->
  let w' := record_event (EvLog LogDisabled) w in
  pre_job float_of_str pcall fuel a devs w = Some (Ret tt, w') /\
  attempts w' = attempts w /\
  count_events is_spawn w' = count_events is_spawn w /\
  clock w' = clock w.
Proof.
  intros H w'. unfold pre_job. rewrite H.
  repeat split.
Qed.

(** C9: with exactly one device in the testbed, and that device connected
    (its task returned [True]), the test on the results reads
    [pcall_output[1]] of a one-element result and the hook raises
    [IndexError]. *)
Theorem pre_job_single_device_index_error launch fuel a d w wc :
  truthy (all_devices_up a) = false ->
  device_connect float_of_str fuel d (clock w) (connection_check_timeout a)
    (connection_check_interval a) (World (clock w + launch 0%nat) []) =
  Some (Ret true, wc) ->
  exists w', pre_job float_of_str (pcall_fork launch) fuel a [d] w = Some (Raise IndexError, w').
Proof.
  intros Hflag Hup.
  rewrite pre_job_enabled by assumption.
  unfold bind at 1.
  erewrite pcall_fork_single by exact Hup.
  eexists. reflexivity.
Qed.

(** C7: one enabled run of the hook reads the clock once, before the
    fan-out; every task is spawned with that one reading as [start_time] and
    runs [device_connect] against it, whenever the task itself starts. *)
Theorem pre_job_shares_start_time launch fuel a devs w r w' :
  truthy (all_devices_up a) = false ->
  pre_job float_of_str (pcall_fork launch) fuel a devs w = Some (r, w') ->
  let timeout := connection_check_timeout a in
  let interval := connection_check_interval a in
  let ck := Ckwargs (clock w) timeout interval in
  let at_fork :=
    record_event (EvLog (LogTimers timeout interval))
      (record_event (EvTime (clock w)) w) in
  trace w' =
    (rev (map (spawn_event ck) devs) ++
     EvLog (LogTimers timeout interval) :: EvTime (clock w) :: trace w)%list /\
  count_events is_time w' = S (count_events is_time w) /\
  exists rs,
    run_children (fun d => device_connect float_of_str fuel d (clock w) timeout interval)
      launch 0%nat devs at_fork = Some rs /\
    List.length rs = List.length devs.
Proof.
  intros Hflag Hrun timeout interval ck at_fork.
  rewrite pre_job_enabled in Hrun by assumption.
  unfold bind at 1 in Hrun. unfold pcall_fork in Hrun.
  cbn [ck_start_time ck_timeout ck_interval clock record_event] in Hrun.
  fold timeout interval ck in Hrun.
  destruct (run_children _ launch 0%nat devs _) as [rs|] eqn:Hchildren;
    [|discriminate].
  assert (Htrace : trace w' =
            (rev (map (spawn_event ck) devs) ++
             EvLog (LogTimers timeout interval) :: EvTime (clock w) :: trace w)%list).
  { destruct (collect rs) as [[|b1 [|b2 out]]|e]; try destruct b1; try destruct b2;
      simpl in Hrun; injection Hrun as _ <-; reflexivity. }
  split; [exact Htrace|]. split.
  - unfold count_events. rewrite Htrace, filter_app, no_time_in_spawns. reflexivity.
  - exists rs. split; [reflexivity|].
    eapply run_children_length. exact Hchildren.
Qed.

(** With two results or more, only the first two decide. *)
Lemma pre_job_tests_first_two pcall fuel a devs w b1 b2 rest w1 :
  truthy (all_devices_up a) = false ->
  pcall (device_connect float_of_str fuel)
    (Ckwargs (clock w) (connection_check_timeout a) (connection_check_interval a))
    devs
    (record_event
       (EvLog (LogTimers (connection_check_timeout a) (connection_check_interval a)))
       (record_event (EvTime (clock w)) w)) = Some (Ret (b1 :: b2 :: rest), w1) ->
  pre_job float_of_str pcall fuel a devs w =
  Some (if b1 && b2 then Ret tt
        else Raise (PyException "Not all the testbed devices are up and ready"),
        w1).
Proof.
  intros Hflag Hout.
  rewrite pre_job_enabled by assumption.
  unfold bind at 1. rewrite Hout.
  destruct b1, b2; reflexivity.
Qed.

(** A single result [False] stops the test at [pcall_output[0]]. *)
Lemma pre_job_single_device_down pcall fuel a devs w w1 :
  truthy (all_devices_up a) = false ->
  pcall (device_connect float_of_str fuel)
    (Ckwargs (clock w) (connection_check_timeout a) (connection_check_interval a))
    devs
    (record_event
       (EvLog (LogTimers (connection_check_timeout a) (connection_check_interval a)))
       (record_event (EvTime (clock w)) w)) = Some (Ret [false], w1) ->
  pre_job float_of_str pcall fuel a devs w =
  Some (Raise (PyException "Not all the testbed devices are up and ready"), w1).
Proof.
  intros Hflag Hout.
  rewrite pre_job_enabled by assumption.
  unfold bind at 1. rewrite Hout. reflexivity.
Qed.

Lemma loop_test_raises start timeout e w :
  py_float float_of_str timeout = Raise e ->
  loop_test float_of_str start timeout w =
  Some (Raise e, record_event (EvTime (clock w)) w).
Proof. intros H. run. rewrite H. reflexivity. Qed.

Lemma py_float_raises v e :
  py_float float_of_str v = Raise e -> e = TypeError \/ e = ValueError.
Proof.
  destruct v as [|b|x|s]; simpl; try discriminate.
  - intros [= <-]. now left.
  - destruct (float_of_str s); [discriminate|]. intros [= <-]. now right.
Qed.

Lemma py_sub_float_raises v x e :
  py_sub_float v x = Raise e -> e = TypeError.
Proof. destruct v; simpl; congruence. Qed.

(** The exception of a failed [connect()] never leaves the loop, whatever the
    arguments are. *)
Lemma retry_loop_catches_connection_error d start timeout interval td :
  forall fuel w w',
    while fuel (loop_test float_of_str start timeout)
      (loop_body d timeout interval td) (ret false) w <>
    Some (Raise ConnectionError, w').
Proof.
  induction fuel as [|fuel IH]; intros w w' H; [discriminate|].
  rewrite while_step in H.
  destruct (py_float float_of_str timeout) as [limit|e] eqn:Hfloat.
  - rewrite (loop_test_numeric _ _ limit) in H by assumption.
    destruct (clock w - start <? limit); cbv beta iota in H; [|discriminate].
    destruct (dev_connect d (attempts (record_event (EvTime (clock w)) w))
                (clock (record_event (EvTime (clock w)) w))) as [[|] took] eqn:Hconn.
    + erewrite loop_body_connected in H by exact Hconn. discriminate.
    + erewrite loop_body_refused in H by exact Hconn.
      unfold bind, lift, log_info, sleep, ret in H.
      destruct (py_sub_float timeout td) as [remaining|e] eqn:Hsub.
      * cbv beta iota in H.
        destruct interval as [|b|x|s]; try discriminate.
        -- exact (IH _ _ H).
        -- destruct (x <? 0); [discriminate|]. exact (IH _ _ H).
      * apply py_sub_float_raises in Hsub. subst e. discriminate.
  - rewrite (loop_test_raises _ _ e) in H by assumption.
    apply py_float_raises in Hfloat.
    destruct Hfloat; subst e; discriminate.
Qed.

(** With a numeric timeout and a numeric, non-negative interval the loop
    raises nothing at all: every answer is a boolean. *)
Lemma retry_loop_numeric_returns_bool d start T I td :
  0 <= I ->
  forall fuel w r w',
    while fuel (loop_test float_of_str start (PNum T)) (loop_body d (PNum T) (PNum I) td)
      (ret false) w = Some (r, w') ->
    exists b, r = Ret b.
Proof.
  intros HI.
  induction fuel as [|fuel IH]; intros w r w' H; [discriminate|].
  rewrite while_step, (loop_test_numeric _ _ T) in H by reflexivity.
  destruct (clock w - start <? T); cbv beta iota in H.
  - destruct (dev_connect d (attempts (record_event (EvTime (clock w)) w))
                (clock (record_event (EvTime (clock w)) w))) as [[|] took] eqn:Hconn.
    + erewrite loop_body_connected in H by exact Hconn.
      injection H as <- _. eauto.
    + erewrite loop_body_refused in H by exact Hconn.
      unfold bind, lift, log_info, sleep, ret, py_sub_float in H.
      cbv beta iota in H.
      rewrite (proj2 (Z.ltb_ge I 0)) in H by lia.
      eapply IH. exact H.
  - injection H as <- _. eauto.
Qed.

Corollary device_connect_catches_connection_error fuel d start timeout interval w w' :
  device_connect float_of_str fuel d start timeout interval w <>
  Some (Raise ConnectionError, w').
Proof. rewrite device_connect_eq. apply retry_loop_catches_connection_error. Qed.

(** With a numeric timeout and a numeric, non-negative interval,
    [device_connect] never raises: whenever it finishes, it returns a
    boolean. *)
Corollary device_connect_numeric_returns_bool fuel d start T I w r w' :
  0 <= I ->
  device_connect float_of_str fuel d start (PNum T) (PNum I) w = Some (r, w') ->
  exists b, r = Ret b.
Proof.
  intros HI. rewrite device_connect_eq.
  apply retry_loop_numeric_returns_bool. assumption.
Qed.

(** Every non-empty string is true, ["False"] included. *)
Lemma truthy_string s : truthy (PStr s) = true <-> s <> "".
Proof.
  simpl. destruct (String.eqb_spec s ""); simpl; split; congruence.
Qed.

End Properties.

(** * Runs of the plugin on sample testbeds *)

(** C1: three devices, the first two up and the third never reachable.  The
    per-device results are [True; True; False], so not every device is
    ready, yet the hook returns normally: the test reads only
    [pcall_output[0]] and [pcall_output[1]]. *)
Theorem pre_job_misses_third_device :
  let devs := [device_up "A"; device_up "B"; device_down "C"] in
  let a := Args PNone (PNum 3) (PNum 1) in
  map (fun d => option_map fst
                  (device_connect decimal_float 10 d 0 (PNum 3) (PNum 1)
                     (fresh_world 0))) devs =
    [Some (Ret true); Some (Ret true); Some (Ret false)] /\
  all_devices_ready [true; true; false] = false /\
  option_map fst
    (pre_job decimal_float (pcall_fork no_delay) 10 a devs (fresh_world 0)) =
    Some (Ret tt).
Proof. repeat split. Qed.

(** C4: a timeout given on the command line.  The first attempt fails, the
    handler's message raises [TypeError], and that exception leaves
    [device_connect] with no sleep and no retry, although the device would
    have accepted the second attempt.  An interval given on the command line
    does the same one step later, at [sleep]. *)
Theorem device_connect_cli_values_escape :
  let d := device_up_after "A" 1 in
  let cli_timeout :=
    parse_args (configure_parser false) ["--connection-check-timeout"; "30"] in
  let cli_interval :=
    parse_args (configure_parser false) ["--connection-check-interval"; "5"] in
  device_connect decimal_float 10 d 0 (connection_check_timeout cli_timeout)
    (connection_check_interval cli_timeout) (fresh_world 0) =
    Some (Raise TypeError, World 0 [EvConnect "A" false; EvTime 0; EvTime 0]) /\
  device_connect decimal_float 10 d 0 (connection_check_timeout cli_interval)
    (connection_check_interval cli_interval) (fresh_world 0) =
    Some (Raise TypeError,
          World 0 [EvLog (LogRetry "A" (PStr "5") 120); EvConnect "A" false;
                   EvTime 0; EvTime 0]) /\
  device_connect decimal_float 10 d 0 (PNum 30) (PNum 5) (fresh_world 0) =
    Some (Ret true,
          World 5 [EvLog (LogConnected "A"); EvConnect "A" true; EvTime 5;
                   EvSleep 5; EvLog (LogRetry "A" (PNum 5) 30);
                   EvConnect "A" false; EvTime 0; EvTime 0]).
Proof. repeat split. Qed.

(** C8: the option given the value [False] on the command line.  The
    namespace holds the string ["False"], which is true, and the hook returns
    without checking the one device, which is down. *)
Theorem pre_job_disabled_by_string_false :
  let cli := parse_args (configure_parser true) ["-ignore-all-devices-up"; "False"] in
  all_devices_up (parse_args (configure_parser true) []) = PNone /\
  all_devices_up cli = PStr "False" /\
  pre_job decimal_float (pcall_fork no_delay) 10 cli [device_down "A"]
    (fresh_world 0) = Some (Ret tt, World 0 [EvLog LogDisabled]).
Proof. repeat split. Qed.

(** * The general statements at concrete inputs *)

Lemma pre_job_disabled_skips_checks_witness :
  let a := Args (PBool true) (PNum 120) (PNum 10) in
  let w' := record_event (EvLog LogDisabled) (fresh_world 0) in
  pre_job decimal_float (pcall_fork no_delay) 0 a [device_down "A"] (fresh_world 0) =
    Some (Ret tt, w') /\
  attempts w' = attempts (fresh_world 0) /\
  count_events is_spawn w' = count_events is_spawn (fresh_world 0) /\
  clock w' = clock (fresh_world 0).
Proof.
  apply (pre_job_disabled_skips_checks decimal_float (pcall_fork no_delay) 0%nat
           (Args (PBool true) (PNum 120) (PNum 10)) [device_down "A"]
           (fresh_world 0)).
  reflexivity.
Defined.

Lemma device_connect_always_fails_bounded_witness :
  exists fuel w',
    (forall fuel', (fuel <= fuel')%nat ->
       device_connect decimal_float fuel' (device_down "A") 0 (PNum 3) (PNum 1)
         (fresh_world 0) = Some (Ret false, w')) /\
    clock w' - 0 <= 3 + 1.
Proof.
  apply (device_connect_always_fails_bounded decimal_float (device_down "A") 0 3 1
           (fresh_world 0)).
  - lia.
  - intros n t. reflexivity.
  - simpl. lia.
Defined.

Lemma device_connect_deadline_passed_witness :
  exists w',
    device_connect decimal_float 1 (device_up "A") 0 (PNum 3) (PNum 1)
      (fresh_world 5) = Some (Ret false, w') /\
    attempts w' = attempts (fresh_world 5) /\
    sleeps w' = sleeps (fresh_world 5) /\
    clock w' = clock (fresh_world 5).
Proof.
  apply (device_connect_deadline_passed decimal_float 0%nat (device_up "A") 0
           (PNum 3) (PNum 1) (fresh_world 5) 3).
  - reflexivity.
  - simpl. lia.
Defined.

Lemma device_connect_first_attempt_succeeds_witness :
  exists w',
    device_connect decimal_float 1 (device_up "A") 0 (PStr "30") (PNum 5)
      (fresh_world 0) = Some (Ret true, w') /\
    attempts w' = S (attempts (fresh_world 0)) /\
    sleeps w' = sleeps (fresh_world 0).
Proof.
  apply (device_connect_first_attempt_succeeds decimal_float 0%nat (device_up "A") 0
           (PStr "30") (PNum 5) (fresh_world 0) 30).
  - reflexivity.
  - simpl. lia.
  - reflexivity.
Defined.

Lemma pre_job_shares_start_time_witness :
  let devs := [device_up "A"; device_up_after "B" 1] in
  let a := Args PNone (PNum 30) (PNum 5) in
  let ck := Ckwargs 100 (PNum 30) (PNum 5) in
  let at_fork :=
    record_event (EvLog (LogTimers (PNum 30) (PNum 5)))
      (record_event (EvTime 100) (fresh_world 100)) in
  let w' :=
    World 107 [EvSpawn "B" 100 (PNum 30) (PNum 5); EvSpawn "A" 100 (PNum 30) (PNum 5);
               EvLog (LogTimers (PNum 30) (PNum 5)); EvTime 100] in
  trace w' =
    (rev (map (spawn_event ck) devs) ++
     [EvLog (LogTimers (PNum 30) (PNum 5)); EvTime 100])%list /\
  count_events is_time w' = S (count_events is_time (fresh_world 100)) /\
  exists rs,
    run_children
      (fun d => device_connect decimal_float 10 d 100 (PNum 30) (PNum 5))
      (fun i => 2 * Z.of_nat i) 0%nat devs at_fork = Some rs /\
    List.length rs = List.length devs.
Proof.
  apply (pre_job_shares_start_time decimal_float (fun i => 2 * Z.of_nat i) 10%nat
           (Args PNone (PNum 30) (PNum 5))
           [device_up "A"; device_up_after "B" 1] (fresh_world 100) (Ret tt)).
  - reflexivity.
  - reflexivity.
Defined.

Lemma pre_job_single_device_index_error_witness :
  exists w',
    pre_job decimal_float (pcall_fork no_delay) 1 default_args [device_up "A"]
      (fresh_world 0) = Some (Raise IndexError, w').
Proof.
  apply (pre_job_single_device_index_error decimal_float no_delay 1%nat default_args
           (device_up "A") (fresh_world 0)
           (World 0 [EvLog (LogConnected "A"); EvConnect "A" true; EvTime 0; EvTime 0])).
  - reflexivity.
  - reflexivity.
Defined.

Lemma device_connect_string_timeout_type_error_witness :
  connection_check_timeout
    (parse_args (configure_parser true) ["-connection-check-timeout"; "30"]) =
    PStr "30" /\
  exists w',
    device_connect decimal_float 1 (device_down "A") 0
      (connection_check_timeout
         (parse_args (configure_parser true) ["-connection-check-timeout"; "30"]))
      (PNum 5) (fresh_world 0) = Some (Raise TypeError, w') /\
    attempts w' = S (attempts (fresh_world 0)) /\
    sleeps w' = sleeps (fresh_world 0).
Proof.
  apply (device_connect_string_timeout_type_error decimal_float true "30" 0%nat
           (device_down "A") 0 (PNum 5) (fresh_world 0) 30).
  - reflexivity.
  - simpl. lia.
  - reflexivity.
Defined.

(** * Further properties of the retry loop *)

Section RetryLoop.

Variable float_of_str : string -> option Z.

(** Every way the loop body ends is one of the four steps. *)
Lemma loop_body_step d timeout interval td w res w2 :
  loop_body d timeout interval td w = Some (res, w2) ->
  body_step d timeout interval td w res w2.
Proof.
  intros H.
  destruct (dev_connect d (attempts w) (clock w)) as [[|] took] eqn:Hconn.
  - rewrite (loop_body_connected d timeout interval td w took Hconn) in H.
    injection H as <- <-. now apply step_connected.
  - rewrite (loop_body_refused d timeout interval td w took Hconn) in H.
    unfold bind, lift, log_info, sleep, ret in H.
    destruct (py_sub_float timeout td) as [remaining|e] eqn:Hsub.
    + cbv beta iota in H.
      destruct interval as [|b|x|s].
      * injection H as <- <-. eapply step_sleep_raises; eauto.
      * injection H as <- <-. eapply step_retry; eauto. destruct b; simpl; lia.
      * destruct (Z.ltb_spec x 0).
        -- injection H as <- <-. eapply step_sleep_raises; eauto.
        -- injection H as <- <-. eapply step_retry; eauto.
      * injection H as <- <-. eapply step_sleep_raises; eauto.
    + injection H as <- <-.
      pose proof (py_sub_float_raises _ _ _ Hsub). subst e.
      now apply step_message_raises with (took := took).
Qed.

(** A rule for the whole loop: an invariant [P] of the worlds at the loop
    test, and what holds of the result, [Q]. *)
Lemma retry_loop_rule d start timeout interval td
    (P : world -> Prop) (Q : outcome bool -> world -> Prop) :
  (forall w e, P w -> py_float float_of_str timeout = Raise e ->
     Q (Raise e) (record_event (EvTime (clock w)) w)) ->
  (forall w limit, P w -> py_float float_of_str timeout = Ret limit ->
     limit <= clock w - start ->
     Q (Ret false) (record_event (EvTime (clock w)) w)) ->
  (forall w limit res w2, P w -> py_float float_of_str timeout = Ret limit ->
     clock w - start < limit ->
     body_step d timeout interval td (record_event (EvTime (clock w)) w) res w2 ->
     match res with
     | Ret Continue => P w2
     | Ret (Return r) => Q (Ret r) w2
     | Raise e => Q (Raise e) w2
     end) ->
  forall fuel w r w',
    P w ->
    while fuel (loop_test float_of_str start timeout)
      (loop_body d timeout interval td) (ret false) w = Some (r, w') ->
    Q r w'.
Proof.
  intros Hraise Hexit Hstep.
  induction fuel as [|fuel IH]; intros w r w' HP H; [discriminate|].
  rewrite while_step in H.
  remember (py_float float_of_str timeout) as o eqn:Hfloat.
  symmetry in Hfloat. destruct o as [limit|e].
  - rewrite (loop_test_numeric float_of_str _ _ limit) in H by assumption.
    destruct (Z.ltb_spec (clock w - start) limit) as [Hearly|Hlate];
      cbv beta iota in H.
    + destruct (loop_body d timeout interval td
                  (record_event (EvTime (clock w)) w)) as [[res w2]|] eqn:Hbody;
        [|discriminate].
      pose proof (Hstep w limit res w2 HP eq_refl Hearly
                    (loop_body_step _ _ _ _ _ _ _ Hbody)) as Hres.
      destruct res as [[|b]|e].
      * eapply IH; eassumption.
      * injection H as <- <-. assumption.
      * injection H as <- <-. assumption.
    + unfold ret in H. injection H as <- <-.
      apply (Hexit w limit HP eq_refl Hlate).
  - rewrite (loop_test_raises float_of_str _ _ e) in H by assumption.
    injection H as <- <-. apply (Hraise w e HP eq_refl).
Qed.

(** Whatever its arguments, the only exceptions [device_connect] can let out
    are [TypeError] and [ValueError]; whatever [connect()] raised is never
    among them. *)
Theorem device_connect_raises_type_or_value_error
    fuel d start timeout interval w e w' :
  device_connect float_of_str fuel d start timeout interval w = Some (Raise e, w') ->
  e = TypeError \/ e = ValueError.
Proof.
  rewrite device_connect_eq. intros H.
  set (Q := fun (r : outcome bool) (_ : world) =>
              forall e, r = Raise e -> e = TypeError \/ e = ValueError).
  assert (HQ : Q (Raise e) w'); [|exact (HQ e eq_refl)].
  eapply (retry_loop_rule d start timeout interval _ (fun _ => True) Q);
    [ | | | exact I | exact H]; unfold Q.
  - intros w0 e0 _ Hf e1 [= <-]. eapply py_float_raises; eauto.
  - intros; discriminate.
  - intros w0 limit res w2 _ _ _ Hs.
    inversion Hs; subst; try exact I; intros e1 [= <-]; auto.
Qed.

(** [device_connect] gives up only at the deadline: when it returns [False]
    the time elapsed since [start_time] has reached [float(timeout)]. *)
Theorem device_connect_false_only_at_deadline
    fuel d start timeout interval w limit w' :
  py_float float_of_str timeout = Ret limit ->
  device_connect float_of_str fuel d start timeout interval w = Some (Ret false, w') ->
  limit <= clock w' - start.
Proof.
  intros Hlimit. rewrite device_connect_eq. intros H.
  set (Q := fun (r : outcome bool) (w1 : world) =>
              r = Ret false -> limit <= clock w1 - start).
  assert (HQ : Q (Ret false) w'); [|exact (HQ eq_refl)].
  eapply (retry_loop_rule d start timeout interval _ (fun _ => True) Q);
    [ | | | exact I | exact H]; unfold Q.
  - intros; discriminate.
  - intros w0 limit0 _ Hf Hlate _. simpl. congruence.
  - intros w0 limit0 res w2 _ _ _ Hs.
    inversion Hs; subst; try exact I; discriminate.
Qed.

(** [device_connect] returns [True] only straight after a successful
    [connect()]: the last two effects are that attempt and its log line. *)
Theorem device_connect_true_follows_success
    fuel d start timeout interval w w' :
  device_connect float_of_str fuel d start timeout interval w = Some (Ret true, w') ->
  exists earlier,
    trace w' =
    EvLog (LogConnected (dev_name d)) :: EvConnect (dev_name d) true :: earlier.
Proof.
  rewrite device_connect_eq. intros H.
  set (Q := fun (r : outcome bool) (w1 : world) =>
              r = Ret true -> exists earlier,
                trace w1 = EvLog (LogConnected (dev_name d))
                             :: EvConnect (dev_name d) true :: earlier).
  assert (HQ : Q (Ret true) w'); [|exact (HQ eq_refl)].
  eapply (retry_loop_rule d start timeout interval _ (fun _ => True) Q);
    [ | | | exact I | exact H]; unfold Q.
  - intros; discriminate.
  - intros; discriminate.
  - intros w0 limit0 res w2 _ _ _ Hs.
    inversion Hs; subst; try exact I; try discriminate.
    intros _. eexists. reflexivity.
Qed.

(** Attempts and sleeps go in step: when [device_connect] returns, every
    failed attempt it made was followed by exactly one sleep, and a
    successful attempt by none. *)
Theorem device_connect_one_sleep_per_failure
    fuel d start timeout interval w (b : bool) w' :
  device_connect float_of_str fuel d start timeout interval w = Some (Ret b, w') ->
  (attempts w' + sleeps w = attempts w + sleeps w' + (if b then 1 else 0))%nat.
Proof.
  rewrite device_connect_eq. intros H.
  set (P := fun w1 : world => (attempts w1 + sleeps w = attempts w + sleeps w1)%nat).
  set (Q := fun (r : outcome bool) (w1 : world) =>
              forall b, r = Ret b ->
                (attempts w1 + sleeps w =
                 attempts w + sleeps w1 + (if b then 1 else 0))%nat).
  assert (HQ : Q (Ret b) w'); [|exact (HQ b eq_refl)].
  eapply (retry_loop_rule d start timeout interval _ P Q);
    [ | | | | exact H]; unfold P, Q.
  - intros; discriminate.
  - intros w0 limit0 HP _ _ b0 [= <-].
    unfold attempts, sleeps, count_events in *. simpl. lia.
  - intros w0 limit0 res w2 HP _ _ Hs.
    inversion Hs; subst; try (intros; discriminate).
    + intros b0 [= <-]. unfold attempts, sleeps, count_events in *. simpl. lia.
    + unfold attempts, sleeps, count_events in *. simpl. lia.
  - reflexivity.
Qed.

(** A timeout that [float()] rejects ([None], or text that is not a number)
    stops [device_connect] at the first loop test: the exception of [float]
    comes out and no connection is attempted. *)
Theorem device_connect_unreadable_timeout fuel d start timeout interval w e :
  py_float float_of_str timeout = Raise e ->
  exists w',
    device_connect float_of_str (S fuel) d start timeout interval w =
      Some (Raise e, w') /\
    attempts w' = attempts w /\
    clock w' = clock w.
Proof.
  intros Hfloat.
  rewrite device_connect_eq, while_step,
    (loop_test_raises float_of_str _ _ e) by assumption.
  eexists. split; [reflexivity|]. split; reflexivity.
Qed.

(** A negative interval: the first failed attempt before the deadline is
    logged, then [sleep] refuses the negative length and its [ValueError]
    leaves [device_connect]. *)
Theorem device_connect_negative_interval fuel d start T I w :
  I < 0 ->
  clock w - start < T ->
  fst (dev_connect d (attempts w) (clock w)) = false ->
  exists w',
    device_connect float_of_str (S fuel) d start (PNum T) (PNum I) w =
      Some (Raise ValueError, w') /\
    attempts w' = S (attempts w) /\
    sleeps w' = sleeps w.
Proof.
  intros HI Hearly Hfail.
  destruct (dev_connect d (attempts w) (clock w)) as [ok took] eqn:Hconn.
  simpl in Hfail. subst ok.
  rewrite device_connect_eq, while_step,
    (loop_test_numeric float_of_str _ _ T), clock_record by reflexivity.
  rewrite (proj2 (Z.ltb_lt _ _) Hearly).
  cbv beta iota.
  erewrite loop_body_refused by (rewrite attempts_record, clock_record; exact Hconn).
  unfold bind, lift, log_info, sleep, ret, py_sub_float.
  cbv beta iota.
  rewrite (proj2 (Z.ltb_lt _ _) HI).
  eexists. split; [reflexivity|]. split; reflexivity.
Qed.

(** The remaining time shown in the retry messages is computed from the one
    clock reading taken on entry: every retry message of a call carries
    [timeout] minus the time that had elapsed when the call began, however
    many sleeps came before it. *)
Theorem device_connect_retry_message_is_stale
    fuel d start timeout interval w r w' :
  device_connect float_of_str fuel d start timeout interval w = Some (r, w') ->
  exists added,
    trace w' = (added ++ trace w)%list /\
    forall name iv remaining,
      In (EvLog (LogRetry name iv remaining)) added ->
      py_sub_float timeout (clock w - start) = Ret remaining.
Proof.
  rewrite device_connect_eq. intros H.
  set (P := fun w1 : world =>
              exists added,
                trace w1 = (added ++ trace w)%list /\
                forall name iv remaining,
                  In (EvLog (LogRetry name iv remaining)) added ->
                  py_sub_float timeout (clock w - start) = Ret remaining).
  assert (Hgrow : forall w1 e, P w1 ->
            (forall name iv remaining, e = EvLog (LogRetry name iv remaining) ->
               py_sub_float timeout (clock w - start) = Ret remaining) ->
            P (record_event e w1)).
  { intros w1 e [added [Htrace Hlogs]] He.
    exists (e :: added). split; [simpl; rewrite Htrace; reflexivity|].
    intros name iv remaining [Hin|Hin]; [eapply He; eauto | eapply Hlogs; eauto]. }
  assert (Hadv : forall w1 x, P w1 -> P (advance x w1)) by (intros w1 x HP; exact HP).
  assert (HQ : (fun (_ : outcome bool) w1 => P w1) r w'); [|exact HQ].
  eapply (retry_loop_rule d start timeout interval _ P (fun _ w1 => P w1));
    [ | | | | exact H].
  - intros w0 e HP _. apply Hgrow; [assumption|intros; discriminate].
  - intros w0 limit HP _ _. apply Hgrow; [assumption|intros; discriminate].
  - intros w0 limit res w2 HP _ _ Hs.
    assert (HP0 : P (record_event (EvTime (clock w0)) w0))
      by (apply Hgrow; [assumption|intros; discriminate]).
    inversion Hs; subst; cbv beta.
    + refine (Hgrow _ _ (Hadv _ _ (Hgrow _ _ HP0 _)) _); intros; discriminate.
    + refine (Hadv _ _ (Hgrow _ _ HP0 _)); intros; discriminate.
    + refine (Hgrow _ _ (Hadv _ _ (Hgrow _ _ HP0 _)) _);
        [intros; discriminate|].
      intros name iv rem0 [= <- <- <-]. assumption.
    + refine (Hadv _ _ (Hgrow _ _ (Hgrow _ _ (Hadv _ _ (Hgrow _ _ HP0 _)) _) _));
        [intros; discriminate| |intros; discriminate].
      intros name iv rem0 [= <- <- <-]. assumption.
  - apply Hgrow; [|intros; discriminate].
    exists []. split; [reflexivity|]. intros ? ? ? [].
Qed.

Lemma retry_slow_device_until_deadline d start T I D td :
  0 < I ->
  (forall n t, fst (dev_connect d n t) = false /\ 0 <= snd (dev_connect d n t) <= D) ->
  forall (k fuel : nat) w,
    (k <= fuel)%nat ->
    T - (clock w - start) <= I * Z.of_nat k ->
    clock w - start <= T + D + I ->
    exists w',
      while (S fuel) (loop_test float_of_str start (PNum T))
        (loop_body d (PNum T) (PNum I) td) (ret false) w = Some (Ret false, w') /\
      T <= clock w' - start <= T + D + I.
Proof.
  intros HI Hfail.
  induction k as [|k IH]; intros fuel w Hle Hleft Hbound;
    rewrite while_step, (loop_test_numeric float_of_str _ _ T) by reflexivity;
    destruct (Z.ltb_spec (clock w - start) T) as [Hearly|Hlate];
    cbv beta iota.
  - lia.
  - eexists. split; [reflexivity|]. simpl. lia.
  - destruct (dev_connect d (attempts (record_event (EvTime (clock w)) w))
                (clock (record_event (EvTime (clock w)) w))) as [ok took] eqn:Hconn.
    destruct (Hfail (attempts (record_event (EvTime (clock w)) w))
                (clock (record_event (EvTime (clock w)) w))) as [Hok Htook].
    rewrite Hconn in Hok, Htook. simpl in Hok, Htook. subst ok.
    erewrite loop_body_refused by exact Hconn.
    unfold bind, lift, log_info, sleep, ret, py_sub_float.
    cbv beta iota.
    rewrite (proj2 (Z.ltb_ge I 0)) by lia.
    destruct fuel as [|fuel]; [lia|].
    apply IH; [lia| |]; simpl; lia.
  - eexists. split; [reflexivity|]. simpl. lia.
Qed.

(** A device whose [connect()] always fails and takes up to [D] ticks to do
    so: with an interval [I > 0], [device_connect] entered no later than
    [T + D + I] after the start terminates with [False], and no later than
    [T + D + I] after the start. *)
Theorem device_connect_slow_device_bounded d start T I D w :
  0 < I ->
  (forall n t, fst (dev_connect d n t) = false /\ 0 <= snd (dev_connect d n t) <= D) ->
  clock w - start <= T + D + I ->
  exists fuel w',
    (forall fuel', (fuel <= fuel')%nat ->
       device_connect float_of_str fuel' d start (PNum T) (PNum I) w =
         Some (Ret false, w')) /\
    T <= clock w' - start <= T + D + I.
Proof.
  intros HI Hfail Hentry.
  set (k := Z.to_nat (T - (clock w - start))).
  destruct (retry_slow_device_until_deadline d start T I D (clock w - start)
              HI Hfail k k (record_event (EvTime (clock w)) w)) as [w' [Hrun Hclock]].
  - lia.
  - rewrite clock_record. subst k. nia.
  - rewrite clock_record. assumption.
  - exists (S k), w'. split; [|assumption].
    intros fuel' Hfuel.
    apply (device_connect_fuel_mono float_of_str (S k)); [assumption|].
    rewrite device_connect_eq. exact Hrun.
Qed.

Lemma retry_until_accepted d start T I td (m : nat) :
  0 <= I ->
  (forall k t, (k < m)%nat -> dev_connect d k t = (false, 0)) ->
  (forall t, dev_connect d m t = (true, 0)) ->
  forall (n fuel : nat) w,
    (attempts w + n = m)%nat ->
    (n < fuel)%nat ->
    clock w - start + Z.of_nat n * I < T ->
    exists w',
      while fuel (loop_test float_of_str start (PNum T))
        (loop_body d (PNum T) (PNum I) td) (ret false) w = Some (Ret true, w') /\
      clock w' = clock w + Z.of_nat n * I /\
      attempts w' = S m /\
      sleeps w' = (sleeps w + n)%nat.
Proof.
  intros HI Hrefuse Haccept.
  induction n as [|n IH]; intros fuel w Hattempts Hfuel Hearly;
    (destruct fuel as [|fuel]; [lia|]);
    rewrite while_step, (loop_test_numeric float_of_str _ _ T) by reflexivity;
    rewrite (proj2 (Z.ltb_lt (clock w - start) T)) by lia;
    cbv beta iota.
  - erewrite loop_body_connected
      by (rewrite attempts_record, clock_record; simpl;
          replace (attempts w) with m by lia; apply Haccept).
    eexists. split; [reflexivity|].
    unfold attempts, sleeps, count_events in *. simpl. repeat split; lia.
  - assert (Hn : Z.of_nat (S n) * I = Z.of_nat n * I + I) by lia.
    remember (Z.of_nat (S n) * I) as total eqn:Htotal. clear Htotal.
    erewrite loop_body_refused
      by (rewrite attempts_record, clock_record; simpl; apply Hrefuse; lia).
    unfold bind, lift, log_info, sleep, ret, py_sub_float.
    cbv beta iota.
    rewrite (proj2 (Z.ltb_ge I 0)) by lia.
    destruct (IH fuel
                (advance I
                   (record_event (EvSleep I)
                      (record_event
                         (EvLog (LogRetry (dev_name d) (PNum I) (T - td)))
                         (advance 0
                            (record_event (EvConnect (dev_name d) false)
                               (record_event (EvTime (clock w)) w)))))))
      as [w' [Hrun [Hclock [Hatt Hsl]]]].
    + unfold attempts, count_events in *. simpl. lia.
    + lia.
    + simpl. lia.
    + exists w'. split; [exact Hrun|].
      unfold attempts, sleeps, count_events in *. simpl in *.
      repeat split; lia.
Qed.

(** A device that refuses [n] connections and accepts the next, all at
    once: if the [n] sleeps fit before the deadline, [device_connect]
    returns [True] after [n + 1] attempts and [n] sleeps, [n * I] ticks
    after it was entered. *)
Theorem device_connect_succeeds_after_retries d start T I (n : nat) w fuel :
  0 <= I ->
  (forall k t, (k < attempts w + n)%nat -> dev_connect d k t = (false, 0)) ->
  (forall t, dev_connect d (attempts w + n)%nat t = (true, 0)) ->
  clock w - start + Z.of_nat n * I < T ->
  (n < fuel)%nat ->
  exists w',
    device_connect float_of_str fuel d start (PNum T) (PNum I) w =
      Some (Ret true, w') /\
    clock w' = clock w + Z.of_nat n * I /\
    attempts w' = S (attempts w + n) /\
    sleeps w' = (sleeps w + n)%nat.
Proof.
  intros HI Hrefuse Haccept Hearly Hfuel.
  rewrite device_connect_eq.
  destruct (retry_until_accepted d start T I (clock w - start) (attempts w + n)
              HI Hrefuse Haccept n fuel (record_event (EvTime (clock w)) w))
    as [w' [Hrun [Hclock [Hatt Hsl]]]].
  - reflexivity.
  - assumption.
  - rewrite clock_record. assumption.
  - exists w'. split; [exact Hrun|]. repeat split; assumption.
Qed.

End RetryLoop.

(** * Further properties of the hook and of its options *)

Section Gate.

Variable float_of_str : string -> option Z.

(** As soon as the first result is [False] the hook raises its own
    exception, whatever the other results are and however many there are. *)
Theorem pre_job_first_result_false pcall fuel a devs w rest w1 :
  truthy (all_devices_up a) = false ->
  pcall (device_connect float_of_str fuel)
    (Ckwargs (clock w) (connection_check_timeout a) (connection_check_interval a))
    devs
    (record_event
       (EvLog (LogTimers (connection_check_timeout a) (connection_check_interval a)))
       (record_event (EvTime (clock w)) w)) = Some (Ret (false :: rest), w1) ->
  pre_job float_of_str pcall fuel a devs w =
  Some (Raise (PyException "Not all the testbed devices are up and ready"), w1).
Proof.
  intros Hflag Hout.
  rewrite pre_job_enabled by assumption.
  unfold bind at 1. rewrite Hout. reflexivity.
Qed.

(** The hook handles nothing: an exception raised by the parallel call
    leaves [pre_job] as it is, in the world the call left. *)
Theorem pre_job_propagates_pcall_error pcall fuel a devs w e w1 :
  truthy (all_devices_up a) = false ->
  pcall (device_connect float_of_str fuel)
    (Ckwargs (clock w) (connection_check_timeout a) (connection_check_interval a))
    devs
    (record_event
       (EvLog (LogTimers (connection_check_timeout a) (connection_check_interval a)))
       (record_event (EvTime (clock w)) w)) = Some (Raise e, w1) ->
  pre_job float_of_str pcall fuel a devs w = Some (Raise e, w1).
Proof.
  intros Hflag Hout.
  rewrite pre_job_enabled by assumption.
  unfold bind at 1. rewrite Hout. reflexivity.
Qed.

Lemma device_connect_accepts_at_once fuel d start timeout interval limit t :
  py_float float_of_str timeout = Ret limit ->
  t - start < limit ->
  (forall n t', fst (dev_connect d n t') = true) ->
  exists wc,
    device_connect float_of_str (S fuel) d start timeout interval (World t []) =
    Some (Ret true, wc).
Proof.
  intros Hfloat Hearly Hok.
  specialize (Hok 0%nat t).
  destruct (dev_connect d 0%nat t) as [ok took] eqn:Hconn.
  simpl in Hok. subst ok.
  rewrite device_connect_eq, while_step,
    (loop_test_numeric float_of_str _ _ limit), clock_record by assumption.
  cbn [clock].
  rewrite (proj2 (Z.ltb_lt _ _) Hearly).
  cbv beta iota.
  erewrite loop_body_connected by exact Hconn.
  eexists. reflexivity.
Qed.

Lemma run_children_all_up (f : device -> proc bool) launch devs w :
  (forall d j, In d devs ->
     exists wc, f d (World (clock w + launch j) []) = Some (Ret true, wc)) ->
  forall i, exists rs,
    run_children f launch i devs w = Some rs /\
    collect rs = Ret (map (fun _ => true) devs).
Proof.
  induction devs as [|d devs IH]; intros Hup i.
  - exists []. split; reflexivity.
  - destruct (Hup d i (or_introl eq_refl)) as [wc Hd].
    destruct (IH (fun d' j H => Hup d' j (or_intror H)) (S i)) as [rs [Hrs Hcollect]].
    exists ((Ret true, wc) :: rs). split.
    + simpl. rewrite Hd, Hrs. reflexivity.
    + simpl. rewrite Hcollect. reflexivity.
Qed.

(** The whole gate on a healthy testbed: with two devices or more, each
    accepting every connection, each task started before the deadline, the
    hook returns normally. *)
Theorem pre_job_all_devices_up launch fuel a devs w limit :
  truthy (all_devices_up a) = false ->
  py_float float_of_str (connection_check_timeout a) = Ret limit ->
  (2 <= List.length devs)%nat ->
  (forall i, launch i < limit) ->
  Forall (fun d => forall n t, fst (dev_connect d n t) = true) devs ->
  exists w',
    pre_job float_of_str (pcall_fork launch) (S fuel) a devs w = Some (Ret tt, w').
Proof.
  intros Hflag Hfloat Hlen Hlaunch Hup.
  rewrite pre_job_enabled by assumption.
  unfold bind at 1, pcall_fork.
  cbn [ck_start_time ck_timeout ck_interval].
  destruct (run_children_all_up
              (fun d => device_connect float_of_str (S fuel) d (clock w)
                          (connection_check_timeout a) (connection_check_interval a))
              launch devs
              (record_event
                 (EvLog (LogTimers (connection_check_timeout a)
                           (connection_check_interval a)))
                 (record_event (EvTime (clock w)) w))) with (i := 0%nat)
    as [rs [Hrs Hcollect]].
  - intros d j Hin.
    apply device_connect_accepts_at_once with (limit := limit); [assumption| |].
    + rewrite !clock_record. specialize (Hlaunch j). lia.
    + rewrite Forall_forall in Hup. apply Hup. assumption.
  - rewrite Hrs, Hcollect.
    destruct devs as [|d1 [|d2 devs]]; simpl in Hlen; try lia.
    eexists. reflexivity.
Qed.

End Gate.

Lemma stored_value_default_or_string a :
  forall (n : nat) argv current,
    (List.length argv <= n)%nat ->
    stored_value a argv current = current \/
    exists s, stored_value a argv current = PStr s.
Proof.
  induction n as [|n IH]; intros argv current Hlen.
  - destruct argv; [now left|simpl in Hlen; lia].
  - destruct argv as [|tok [|value rest]]; try (now left).
    simpl in Hlen. cbn [stored_value].
    destruct (existsb (String.eqb tok) (option_strings a)).
    + destruct (IH rest (PStr value)) as [H|H]; [lia| |].
      * right. eauto.
      * right. assumption.
    + apply (IH (value :: rest) current). simpl. lia.
Qed.

(** However the command line reads, each option holds its declared default
    or a string: no value given on the command line is ever a number or a
    boolean. *)
Theorem parse_args_default_or_string (legacy_cli : bool) (argv : list string) :
  let a := parse_args (configure_parser legacy_cli) argv in
  (all_devices_up a = PNone \/ exists s, all_devices_up a = PStr s) /\
  (connection_check_timeout a = PNum 120 \/
   exists s, connection_check_timeout a = PStr s) /\
  (connection_check_interval a = PNum 10 \/
   exists s, connection_check_interval a = PStr s).
Proof.
  destruct legacy_cli; cbn -[stored_value];
    repeat split; eapply stored_value_default_or_string; reflexivity.
Qed.

(** * Properties of the entry-point discovery *)

Lemma not_excluded_iff file :
  negb (existsb (String.eqb file) excluded_files) = true <->
  file <> "__init__.py" /\ file <> "creator.py".
Proof.
  unfold excluded_files. simpl.
  destruct (String.eqb_spec file "__init__.py");
    destruct (String.eqb_spec file "creator.py"); simpl; split;
    intuition congruence.
Qed.

(** The entry points are exactly those of the regular files of the listing
    other than [__init__.py] and [creator.py]: one per such file, made from
    the file name with every [.py] taken out. *)
Theorem discover_creators_spec listing e :
  In e (discover_creators listing) <->
  exists file,
    In (DirEntry file true) listing /\
    file <> "__init__.py" /\ file <> "creator.py" /\
    e = entry_point (replace ".py" "" file).
Proof.
  unfold discover_creators. rewrite in_map_iff. split.
  - intros [source [<- Hin]].
    apply in_map_iff in Hin. destruct Hin as [file [<- Hin]].
    apply filter_In in Hin. destruct Hin as [Hin Hkeep].
    apply in_map_iff in Hin. destruct Hin as [[name isfile] [Hname Hin]].
    apply filter_In in Hin. destruct Hin as [Hin Hfile].
    simpl in Hname, Hfile. subst.
    apply not_excluded_iff in Hkeep.
    exists file. intuition.
  - intros [file [Hin [H1 [H2 ->]]]].
    exists (replace ".py" "" file). split; [reflexivity|].
    apply in_map_iff. exists file. split; [reflexivity|].
    apply filter_In. split.
    + apply in_map_iff. exists (DirEntry file true). split; [reflexivity|].
      apply filter_In. split; [assumption|reflexivity].
    + apply not_excluded_iff. split; assumption.
Qed.

Lemma replace_without_occurrence old new s :
  contains old s = false -> replace_from old new 0 s = s.
Proof.
  induction s as [|c s IH]; intros H; [reflexivity|].
  cbn [contains] in H. apply orb_false_iff in H. destruct H as [Hhere Hrest].
  cbn [replace_from]. rewrite Hhere. f_equal. apply IH. assumption.
Qed.

Lemma replace_dot_py_suffix name :
  contains "." name = false -> replace ".py" "" (name ++ ".py") = name.
Proof.
  unfold replace.
  induction name as [|c name IH]; intros H; [reflexivity|].
  cbn [contains] in H. apply orb_false_iff in H. destruct H as [Hhere Hrest].
  cbn [startswith] in Hhere.
  rewrite andb_true_r in Hhere.
  change ((String c name ++ ".py")%string) with (String c (name ++ ".py")).
  cbn [replace_from startswith]. rewrite Hhere. cbn [andb].
  f_equal. apply IH. assumption.
Qed.

(** A module file [name.py] whose name has no dot is registered under
    [name], with the class [name.title()]. *)
Theorem discover_creators_plain_module listing name :
  In (DirEntry (name ++ ".py") true) listing ->
  contains "." name = false ->
  name <> "__init__" ->
  name <> "creator" ->
  In (name ++ " = src.creators." ++ name ++ ":" ++ title name)%string
     (discover_creators listing).
Proof.
  intros Hin Hdot H1 H2.
  apply discover_creators_spec.
  exists (name ++ ".py")%string.
  pose proof (replace_dot_py_suffix name Hdot) as Hreplace.
  repeat split.
  - assumption.
  - intros Heq. apply H1. rewrite <- Hreplace, Heq. reflexivity.
  - intros Heq. apply H2. rewrite <- Hreplace, Heq. reflexivity.
  - rewrite Hreplace. reflexivity.
Qed.

(** A regular file whose name has no [.py] in it at all is registered too,
    under its whole name. *)
Theorem discover_creators_registers_other_files listing file :
  In (DirEntry file true) listing ->
  contains ".py" file = false ->
  In (entry_point file) (discover_creators listing).
Proof.
  intros Hin Hpy.
  apply discover_creators_spec.
  exists file. repeat split.
  - assumption.
  - intros ->. discriminate Hpy.
  - intros ->. discriminate Hpy.
  - unfold replace. rewrite replace_without_occurrence by assumption. reflexivity.
Qed.

Lemma lower_is_not_upper c : is_lower c = true -> is_upper c = false.
Proof.
  unfold is_lower, is_upper. intros H.
  apply andb_true_iff in H. destruct H as [H1 H2].
  apply Nat.leb_le in H1.
  apply andb_false_iff. right. apply Nat.leb_gt. lia.
Qed.

Lemma title_from_cased_lowercase s :
  forallb is_lower (list_ascii_of_string s) = true -> title_from true s = s.
Proof.
  induction s as [|c s IH]; intros H; [reflexivity|].
  simpl in H. apply andb_true_iff in H. destruct H as [Hc Hs].
  cbn [title_from]. unfold to_lower.
  rewrite (lower_is_not_upper c Hc), Hc. cbn [orb].
  f_equal. apply IH. assumption.
Qed.

(** For a name made of lower-case letters only, the class looked for is the
    name with its first letter raised and nothing else changed. *)
Theorem title_of_lowercase_name c rest :
  forallb is_lower (list_ascii_of_string (String c rest)) = true ->
  title (String c rest) = String (to_upper c) rest.
Proof.
  intros H. simpl in H. apply andb_true_iff in H. destruct H as [Hc Hrest].
  unfold title. cbn [title_from]. rewrite Hc. cbn [orb].
  f_equal. apply title_from_cased_lowercase. assumption.
Qed.

(** * The further statements at concrete inputs *)

Lemma device_connect_raises_type_or_value_error_witness :
  TypeError = TypeError \/ TypeError = ValueError.
Proof.
  apply (device_connect_raises_type_or_value_error decimal_float 5 (device_down "A") 0
           (PStr "3") (PNum 1) (fresh_world 0) TypeError
           (World 0 [EvConnect "A" false; EvTime 0; EvTime 0])).
  reflexivity.
Defined.

Lemma device_connect_numeric_returns_bool_witness :
  exists b : bool, Ret false = Ret b.
Proof.
  apply (device_connect_numeric_returns_bool decimal_float 1 (device_down "A") 0 3 1
           (fresh_world 5) (Ret false) (World 5 [EvTime 5; EvTime 5])).
  - lia.
  - reflexivity.
Defined.

Lemma device_connect_false_only_at_deadline_witness :
  3 <= clock (World 5 [EvTime 5; EvTime 5]) - 0.
Proof.
  apply (device_connect_false_only_at_deadline decimal_float 1 (device_down "A") 0
           (PNum 3) (PNum 1) (fresh_world 5) 3 (World 5 [EvTime 5; EvTime 5])).
  - reflexivity.
  - reflexivity.
Defined.

Lemma device_connect_true_follows_success_witness :
  exists earlier,
    trace (World 0 [EvLog (LogConnected "A"); EvConnect "A" true; EvTime 0; EvTime 0]) =
    EvLog (LogConnected (dev_name (device_up "A")))
      :: EvConnect (dev_name (device_up "A")) true :: earlier.
Proof.
  apply (device_connect_true_follows_success decimal_float 1 (device_up "A") 0
           (PNum 3) (PNum 1) (fresh_world 0)).
  reflexivity.
Defined.

Lemma device_connect_one_sleep_per_failure_witness :
  let w' :=
    World 5 [EvLog (LogConnected "A"); EvConnect "A" true; EvTime 5; EvSleep 5;
             EvLog (LogRetry "A" (PNum 5) 30); EvConnect "A" false;
             EvTime 0; EvTime 0] in
  (attempts w' + sleeps (fresh_world 0) =
   attempts (fresh_world 0) + sleeps w' + 1)%nat.
Proof.
  apply (device_connect_one_sleep_per_failure decimal_float 10 (device_up_after "A" 1) 0
           (PNum 30) (PNum 5) (fresh_world 0) true).
  reflexivity.
Defined.

Lemma device_connect_unreadable_timeout_witness :
  exists w',
    device_connect decimal_float 1 (device_up "A") 0 (PStr "soon") (PNum 5)
      (fresh_world 0) = Some (Raise ValueError, w') /\
    attempts w' = attempts (fresh_world 0) /\
    clock w' = clock (fresh_world 0).
Proof.
  apply (device_connect_unreadable_timeout decimal_float 0 (device_up "A") 0
           (PStr "soon") (PNum 5) (fresh_world 0) ValueError).
  reflexivity.
Defined.

Lemma device_connect_negative_interval_witness :
  exists w',
    device_connect decimal_float 1 (device_down "A") 0 (PNum 30) (PNum (-5))
      (fresh_world 0) = Some (Raise ValueError, w') /\
    attempts w' = S (attempts (fresh_world 0)) /\
    sleeps w' = sleeps (fresh_world 0).
Proof.
  apply (device_connect_negative_interval decimal_float 0 (device_down "A") 0 30 (-5)
           (fresh_world 0)).
  - lia.
  - simpl. lia.
  - reflexivity.
Defined.

Lemma device_connect_retry_message_is_stale_witness :
  let w' :=
    World 5 [EvLog (LogConnected "A"); EvConnect "A" true; EvTime 5; EvSleep 5;
             EvLog (LogRetry "A" (PNum 5) 30); EvConnect "A" false;
             EvTime 0; EvTime 0] in
  exists added,
    trace w' = (added ++ trace (fresh_world 0))%list /\
    forall name iv remaining,
      In (EvLog (LogRetry name iv remaining)) added ->
      py_sub_float (PNum 30) (clock (fresh_world 0) - 0) = Ret remaining.
Proof.
  apply (device_connect_retry_message_is_stale decimal_float 10
           (device_up_after "A" 1) 0 (PNum 30) (PNum 5) (fresh_world 0) (Ret true)).
  reflexivity.
Defined.

Lemma device_connect_slow_device_bounded_witness :
  exists fuel w',
    (forall fuel', (fuel <= fuel')%nat ->
       device_connect decimal_float fuel' (Device "S" (fun _ _ => (false, 2))) 0
         (PNum 10) (PNum 1) (fresh_world 0) = Some (Ret false, w')) /\
    10 <= clock w' - 0 <= 10 + 2 + 1.
Proof.
  apply (device_connect_slow_device_bounded decimal_float
           (Device "S" (fun _ _ => (false, 2))) 0 10 1 2 (fresh_world 0)).
  - lia.
  - intros n t. simpl. lia.
  - simpl. lia.
Defined.

Lemma device_connect_succeeds_after_retries_witness :
  exists w',
    device_connect decimal_float 3 (device_up_after "A" 2) 0 (PNum 30) (PNum 5)
      (fresh_world 0) = Some (Ret true, w') /\
    clock w' = clock (fresh_world 0) + Z.of_nat 2 * 5 /\
    attempts w' = S (attempts (fresh_world 0) + 2) /\
    sleeps w' = (sleeps (fresh_world 0) + 2)%nat.
Proof.
  apply (device_connect_succeeds_after_retries decimal_float (device_up_after "A" 2)
           0 30 5 2 (fresh_world 0) 3).
  - lia.
  - intros k t Hk. simpl in *. destruct k as [|[|k]]; [reflexivity|reflexivity|lia].
  - intros t. reflexivity.
  - simpl. lia.
  - lia.
Defined.
